(** * Micro-Bookstore: the Controller gateway, the Inventory look-up and the
    storefront script, embedded and verified.

    Sources embedded here:
    - [services/controller/index.js]: the Express routes [/products] and
      [/shipping/:zipcode];
    - the README's Practical Task #1: [SearchProductByID] of the Inventory
      service and the Controller route [/product/:id];
    - the storefront script: [newBook], [calculateShipping] and the promise
      chains of [calculateShipping] and of the [DOMContentLoaded] listener.

    The Controller is modelled twice: its routes as traces of what they do
    ([Controller]), and as a Node process whose code could keep variables
    between requests and which ends on an uncaught exception ([Process]). *)

From Stdlib Require Import ZArith List String Ascii Bool Lia.
From Stdlib Require Import PrimFloat Uint63 DecimalString FloatOps SpecFloat.
Import ListNotations.

#[local] Set Warnings "-register-all".
#[local] Open Scope string_scope.
#[local] Open Scope Z_scope.

(* ================================================================= *)
(** ** JavaScript values *)

Module JS.

(** The values the services exchange.  Numbers are IEEE-754 doubles; an object
    is its list of own properties in insertion order; a function is opaque and
    known by its name only. *)
Inductive Value : Type :=
| Undefined
| Null
| Boolean (b : bool)
| Number (x : float)
| Str (s : string)
| Array (items : list Value)
| Object (fields : list (string * Value))
| Func (name : string).

(** Exceptions raised by the language itself. *)
Inductive Error : Type :=
| TypeError (what : string)
| ReferenceError (name : string).

(** [ToBoolean], as used by [if (err)]. *)
Definition truthy (v : Value) : bool :=
  match v with
  | Undefined | Null => false
  | Boolean b => b
  | Number x => negb (PrimFloat.eqb x 0%float || PrimFloat.is_nan x)
  | Str EmptyString => false
  | Str (String _ _) => true
  | Array _ | Object _ | Func _ => true
  end.

(** Own-property look-up in an object literal: the last write to a key wins,
    so the list is searched from its end. *)
Fixpoint lookup (k : string) (fields : list (string * Value)) : option Value :=
  match fields with
  | [] => None
  | (k', v) :: rest =>
      match lookup k rest with
      | Some w => Some w
      | None => if String.eqb k k' then Some v else None
      end
  end.

(** The member expression [v.k].  Reading a property of [undefined] or [null]
    throws; a missing property reads as [undefined].  The only keys the
    services read ([products], [value]) are defined on no built-in prototype,
    so every non-object reads them as [undefined]. *)
Definition get (v : Value) (k : string) : Error + Value :=
  match v with
  | Undefined => inl (TypeError "Cannot read properties of undefined")
  | Null => inl (TypeError "Cannot read properties of null")
  | Object fields =>
      match lookup k fields with
      | Some w => inr w
      | None => inr Undefined
      end
  | _ => inr Undefined
  end.

End JS.

(* ================================================================= *)
(** ** The Controller (gateway) *)

Module Controller.
Import JS.

(** The remote operations the two stubs [inventory] and [shipping] offer. *)
Inductive Backend : Type :=
| SearchAllProducts
| GetShippingRate
| SearchProductByID.

(** What a route handler does, in the order it does it.  [Rpc] is a call
    through a gRPC stub; the stub later invokes [callback err data] once. *)
Inductive Prog : Type :=
| Done
| Raise (e : Error)
| ConsoleError (v : Value) (k : Prog)
| Send (status : Z) (body : Value) (k : Prog)
| Rpc (svc : Backend) (payload : Value) (callback : Value -> Value -> Prog).

(** [res.status(code).send(body)] and [res.json(body)]; the latter leaves the
    status at Express's default, 200. *)
Definition res_status_send (code : Z) (body : Value) : Prog := Send code body Done.
Definition res_json (body : Value) : Prog := Send 200 body Done.

(** The literal [{ error: 'something failed :(' }]. *)
Definition something_failed : Value :=
  Object [("error", Str "something failed :(")].

(** [app.get('/products', ...)] *)
Definition get_products : Prog :=
  Rpc SearchAllProducts Null (fun err data =>
    if truthy err then
      ConsoleError err (res_status_send 500 something_failed)
    else
      match get data "products" with
      | inr products => res_json products
      | inl e => Raise e
      end).

(** [app.get('/shipping/:zipcode', ...)]; [zipcode] is [req.params.zipcode]. *)
Definition get_shipping (zipcode : string) : Prog :=
  Rpc GetShippingRate (Object [("zipcode", Str zipcode)]) (fun err data =>
    if truthy err then
      ConsoleError err (res_status_send 500 something_failed)
    else
      match get data "value" with
      | inr value => res_json (Object [("cep", Str zipcode); ("value", value)])
      | inl e => Raise e
      end).

(** [app.get('/product/:id', ...)], the route of the README's Step 4; [id] is
    [req.params.id]. *)
Definition get_product (id : string) : Prog :=
  Rpc SearchProductByID (Object [("id", Str id)]) (fun err product =>
    if truthy err then
      ConsoleError err (res_status_send 500 something_failed)
    else
      res_json product).

(** An inbound request, by the route it matches. *)
Inductive Request : Type :=
| GetProducts
| GetShipping (zipcode : string)
| GetProduct (id : string).

Definition handler (req : Request) : Prog :=
  match req with
  | GetProducts => get_products
  | GetShipping zipcode => get_shipping zipcode
  | GetProduct id => get_product id
  end.

(** *** Running a handler *)

(** What can be observed of a run. *)
Inductive Event : Type :=
| ECall (svc : Backend) (payload : Value)
| ELog (v : Value)
| EResponse (status : Z) (body : Value)
| EThrow (e : Error).

(** The backends as the Controller sees them: each call is answered with the
    pair [(err, data)] handed to the callback. *)
Definition Oracle : Type := Backend -> Value -> Value * Value.

Fixpoint exec (o : Oracle) (p : Prog) : list Event :=
  match p with
  | Done => []
  | Raise e => [EThrow e]
  | ConsoleError v k => ELog v :: exec o k
  | Send status body k => EResponse status body :: exec o k
  | Rpc svc payload callback =>
      ECall svc payload ::
      exec o (callback (fst (o svc payload)) (snd (o svc payload)))
  end.

(** The three projections of a run: backend calls, what reached the server's
    console, and what the client received. *)
Fixpoint calls (tr : list Event) : list (Backend * Value) :=
  match tr with
  | [] => []
  | ECall svc payload :: rest => (svc, payload) :: calls rest
  | _ :: rest => calls rest
  end.

Fixpoint console (tr : list Event) : list Value :=
  match tr with
  | [] => []
  | ELog v :: rest => v :: console rest
  | _ :: rest => console rest
  end.

Fixpoint responses (tr : list Event) : list (Z * Value) :=
  match tr with
  | [] => []
  | EResponse status body :: rest => (status, body) :: responses rest
  | _ :: rest => responses rest
  end.

(** Two oracles give the same reply to every call in a list. *)
Definition same_replies (cs : list (Backend * Value)) (o1 o2 : Oracle) : Prop :=
  forall svc payload, In (svc, payload) cs -> o1 svc payload = o2 svc payload.

End Controller.

(* ================================================================= *)
(** ** The Controller as a process *)

Module Process.
Import JS Controller.

(** The variables of the process that outlive a request: whatever is bound
    outside the handlers and could be assigned from inside one. *)
Definition Store : Type := list (string * Value).

Fixpoint read (x : string) (vars : Store) : option Value :=
  match vars with
  | [] => None
  | (y, v) :: rest => if String.eqb x y then Some v else read x rest
  end.

(** What the JavaScript of a route can do.  Beside the steps of
    [Controller.Prog] it can read a variable that outlives the request
    ([Load]; an unbound name is a [ReferenceError]) and assign one
    ([Assign]).  [Throw] is an exception that nothing catches. *)
Inductive Code : Type :=
| Finish
| Throw (e : Error)
| Log (v : Value) (k : Code)
| Reply (status : Z) (body : Value) (k : Code)
| Call (svc : Backend) (payload : Value) (callback : Value -> Value -> Code)
| Load (x : string) (k : Value -> Code)
| Assign (x : string) (v : Value) (k : Code).

(** The three routes once more, in this language.  [inventory], [shipping]
    and [console] are the only names from outside a handler that the routes
    mention; they are bound once by [const] or by Node and stand for the
    stubs and the console themselves, so they appear as [Call] and [Log]. *)
Definition get_products : Code :=
  Call SearchAllProducts Null (fun err data =>
    if truthy err then
      Log err (Reply 500 something_failed Finish)
    else
      match get data "products" with
      | inr products => Reply 200 products Finish
      | inl e => Throw e
      end).

Definition get_shipping (zipcode : string) : Code :=
  Call GetShippingRate (Object [("zipcode", Str zipcode)]) (fun err data =>
    if truthy err then
      Log err (Reply 500 something_failed Finish)
    else
      match get data "value" with
      | inr value =>
          Reply 200 (Object [("cep", Str zipcode); ("value", value)]) Finish
      | inl e => Throw e
      end).

Definition get_product (id : string) : Code :=
  Call SearchProductByID (Object [("id", Str id)]) (fun err product =>
    if truthy err then
      Log err (Reply 500 something_failed Finish)
    else
      Reply 200 product Finish).

Definition handler (req : Request) : Code :=
  match req with
  | GetProducts => get_products
  | GetShipping zipcode => get_shipping zipcode
  | GetProduct id => get_product id
  end.

(** Running code on the variables as they are: the variables afterwards and
    what was observed. *)
Fixpoint run (o : Oracle) (c : Code) (vars : Store) : Store * list Event :=
  match c with
  | Finish => (vars, [])
  | Throw e => (vars, [EThrow e])
  | Log v k =>
      let '(vars', tr) := run o k vars in (vars', ELog v :: tr)
  | Reply status body k =>
      let '(vars', tr) := run o k vars in (vars', EResponse status body :: tr)
  | Call svc payload callback =>
      let '(vars', tr) :=
        run o (callback (fst (o svc payload)) (snd (o svc payload))) vars in
      (vars', ECall svc payload :: tr)
  | Load x k =>
      match read x vars with
      | Some v => run o (k v) vars
      | None => (vars, [EThrow (ReferenceError x)])
      end
  | Assign x v k => run o k ((x, v) :: vars)
  end.

Fixpoint threw (tr : list Event) : bool :=
  match tr with
  | [] => false
  | EThrow _ :: _ => true
  | _ :: rest => threw rest
  end.

(** A running process: its variables and what it has written to the console.
    The process as a whole is running, or has exited ([None]). *)
Record Running : Type := {
  vars : Store;
  stderr : list Value
}.

Definition State : Type := option Running.

(** One request.  A process that has exited answers nothing.  A running one
    runs the route; the exception of a stub's callback is caught by nobody,
    and Node ends the process on it. *)
Definition step (p : State) (req : Request) (o : Oracle)
  : State * list (Z * Value) :=
  match p with
  | None => (None, [])
  | Some r =>
      let '(vars', tr) := run o (handler req) (vars r) in
      (if threw tr then None
       else Some {| vars := vars'; stderr := (stderr r ++ console tr)%list |},
       responses tr)
  end.

(** A sequence of requests, each with the backends as they are at that
    moment. *)
Fixpoint serve (p : State) (reqs : list (Request * Oracle))
  : State * list (list (Z * Value)) :=
  match reqs with
  | [] => (p, [])
  | (req, o) :: rest =>
      let '(p', resp) := step p req o in
      let '(final, resps) := serve p' rest in
      (final, resp :: resps)
  end.

End Process.

(* ================================================================= *)
(** ** The Inventory service (README, Practical Task #1) *)

Module Inventory.
Import JS.

(** The [ProductResponse] message of [proto/inventory.proto]. *)
Record Product : Type := {
  id : Z;
  name : string;
  quantity : Z;
  price : float;
  photo : string;
  author : string
}.

(** The [Payload] message, and the server-side call object whose [request]
    field carries it ([payload.request.id]). *)
Module Payload.
Record t : Type := { id : Z }.
End Payload.

Record ServerCall : Type := { request : Payload.t }.

(** [SearchProductByID: (payload, callback) => callback(null, products.find(
    (product) => product.id == payload.request.id))].  The result is the pair
    of arguments given to [callback]; [None] is [undefined], what [find]
    returns when no element satisfies the test.  Both operands of [==] are
    [int32] numbers, on which it is numeric equality. *)
Definition SearchProductByID (products : list Product) (payload : ServerCall)
  : Value * option Product :=
  (Null,
   find (fun product => id product =? Payload.id (request payload)) products).

(** An [int32] as a JavaScript number. *)
Definition number_of_int32 (z : Z) : float :=
  if z <? 0 then PrimFloat.opp (PrimFloat.of_uint63 (Uint63.of_Z (- z)))
  else PrimFloat.of_uint63 (Uint63.of_Z z).

(** A product as the JavaScript object the service holds. *)
Definition to_object (p : Product) : Value :=
  Object [("id", Number (number_of_int32 (id p)));
          ("name", Str (name p));
          ("quantity", Number (number_of_int32 (quantity p)));
          ("price", Number (price p));
          ("photo", Str (photo p));
          ("author", Str (author p))].




(** A catalog of three books, with ids 1, 2 and 3. *)
Definition three_books : list Product :=
  [ {| id := 1; name := "Book One"; quantity := 5; price := 10%float;
       photo := "/img/1.png"; author := "A. Author" |};
    {| id := 2; name := "Book Two"; quantity := 7; price := 20%float;
       photo := "/img/2.png"; author := "B. Author" |};
    {| id := 3; name := "Book Three"; quantity := 9; price := 30%float;
       photo := "/img/3.png"; author := "C. Author" |} ].

End Inventory.

(* ================================================================= *)
(** ** The storefront script *)

Module Frontend.
Import JS.
Import Inventory.

(** The part of a DOM element the script sets. *)
Record Element : Type := {
  localName : string;
  className : string;
  innerHTML : string
}.

Definition dq : string := String (ascii_of_nat 34) EmptyString.
Definition nl : string := String (ascii_of_nat 10) EmptyString.

(** [ToString] of an integral number, as a template literal applies it to
    [book.id]. *)
Definition ToString_int (z : Z) : string := NilZero.string_of_int (Z.to_int z).

(** Names visible at some point of the script, innermost binding first. *)
Definition Scope : Type := list (string * Value).

Fixpoint resolve (x : string) (scope : Scope) : option Value :=
  match scope with
  | [] => None
  | (y, v) :: outer => if String.eqb x y then Some v else resolve x outer
  end.

(** How the synchronous part of a call ends: with an exception, or having
    issued the request [fetch(url)]. *)
Inductive Outcome : Type :=
| Threw (e : Error)
| Requested (url : string).

Section Script.

(** [Number.prototype.toFixed] and the [ToString] that string concatenation
    applies to its right operand. *)
Variable toFixed : float -> Z -> string.
Variable ToString : Value -> string.

(** [function newBook(book)]; [book] is one element of the JSON array the
    Controller returned, a [ProductResponse]. *)
Definition newBook (book : Product) : Element :=
  {| localName := "div";
     className := "column is-4";
     innerHTML :=
    nl ++
    "        <div class=" ++ dq ++ "card is-shady" ++ dq ++ ">" ++ nl ++
    "            <div class=" ++ dq ++ "card-image" ++ dq ++ ">" ++ nl ++
    "                <figure class=" ++ dq ++ "image is-4by3" ++ dq ++ ">" ++ nl ++
    "                    <img" ++ nl ++
    "                        src=" ++ dq ++ photo book ++ dq ++ nl ++
    "                        alt=" ++ dq ++ name book ++ dq ++ nl ++
    "                        class=" ++ dq ++ "modal-button" ++ dq ++ nl ++
    "                    />" ++ nl ++
    "                </figure>" ++ nl ++
    "            </div>" ++ nl ++
    "            <div class=" ++ dq ++ "card-content" ++ dq ++ ">" ++ nl ++
    "                <div class=" ++ dq ++ "content book" ++ dq ++ " data-id=" ++ dq ++ ToString_int (id book) ++ dq ++ ">" ++ nl ++
    "                    <div class=" ++ dq ++ "book-meta" ++ dq ++ ">" ++ nl ++
    "                        <p class=" ++ dq ++ "is-size-4" ++ dq ++ ">US$ " ++ toFixed (price book) 2 ++ "</p>" ++ nl ++
    "                        <p class=" ++ dq ++ "is-size-6" ++ dq ++ ">Available in stock: 5</p>" ++ nl ++
    "                        <h4 class=" ++ dq ++ "is-size-3 title" ++ dq ++ ">" ++ name book ++ "</h4>" ++ nl ++
    "                        <p class=" ++ dq ++ "subtitle" ++ dq ++ ">" ++ author book ++ "</p>" ++ nl ++
    "                    </div>" ++ nl ++
    "                    <div class=" ++ dq ++ "field has-addons" ++ dq ++ ">" ++ nl ++
    "                        <div class=" ++ dq ++ "control" ++ dq ++ ">" ++ nl ++
    "                            <input class=" ++ dq ++ "input" ++ dq ++ " type=" ++ dq ++ "text" ++ dq ++ " placeholder=" ++ dq ++ "Enter the ZIP code" ++ dq ++ " />" ++ nl ++
    "                        </div>" ++ nl ++
    "                        <div class=" ++ dq ++ "control" ++ dq ++ ">" ++ nl ++
    "                            <a class=" ++ dq ++ "button button-shipping is-info" ++ dq ++ " data-id=" ++ dq ++ ToString_int (id book) ++ dq ++ "> Calculate Shipping </a>" ++ nl ++
    "                        </div>" ++ nl ++
    "                    </div>" ++ nl ++
    "                    <button class=" ++ dq ++ "button button-buy is-success is-fullwidth" ++ dq ++ ">Buy</button>" ++ nl ++
    "                </div>" ++ nl ++
    "            </div>" ++ nl ++
    "        </div>" |}.

(** The names the script itself declares at top level, over those the browser
    provides ([host]: [fetch], [document], [swal], [console], ...). *)
Definition script_scope (host : Scope) : Scope :=
  (("newBook", Func "newBook") ::
   ("calculateShipping", Func "calculateShipping") :: host)%list.

(** [function calculateShipping(id, cep)], up to the call of [fetch].  The
    callee [fetch] is resolved first, then the argument
    ['http://localhost:3000/shipping/' + zipcode] is evaluated, then the call
    is made.  The body's scope is the parameters over the script's top level;
    the promise handlers attach to what [fetch] returns. *)
Definition calculateShipping (host : Scope) (id cep : Value) : Outcome :=
  let scope := (("id", id) :: ("cep", cep) :: script_scope host)%list in
  match resolve "fetch" scope with
  | None => Threw (ReferenceError "fetch")
  | Some fetch =>
      match resolve "zipcode" scope with
      | None => Threw (ReferenceError "zipcode")
      | Some zipcode =>
          let url := "http://localhost:3000/shipping/" ++ ToString zipcode in
          match fetch with
          | Func _ => Requested url
          | _ => Threw (TypeError "fetch is not a function")
          end
      end
  end.

(** The click listener of a [.button-shipping] element: [id] is the button's
    [data-id] attribute and [zipcode] the value of the book's input, both
    local to the listener. *)
Definition shipping_click (host : Scope) (data_id input_value : string)
  : Outcome :=
  let id := Str data_id in
  let zipcode := Str input_value in
  calculateShipping host id zipcode.

End Script.

(** A browser's globals, as far as the script uses them. *)
Definition browser : Scope :=
  [("fetch", Func "fetch"); ("document", Object []);
   ("swal", Func "swal"); ("console", Object [])].

End Frontend.

(* ================================================================= *)
(** ** The storefront script: the promise chains *)

Module Page.
Import JS Frontend.

(** What [JSON.parse] can produce: the body of a response, once
    [Response.json()] has read it. *)
Inductive Json : Type :=
| JNull
| JBool (b : bool)
| JNumber (x : float)
| JString (s : string)
| JArray (items : list Json)
| JObject (fields : list (string * Json)).

Fixpoint of_json (j : Json) : Value :=
  match j with
  | JNull => Null
  | JBool b => Boolean b
  | JNumber x => Number x
  | JString s => Str s
  | JArray items => Array (map of_json items)
  | JObject fields => Object (map (fun kv => (fst kv, of_json (snd kv))) fields)
  end.

(** What a [throw] or a rejected promise carries: any value ([throw
    data.statusText] throws a string) or an error of the language. *)
Inductive Thrown : Type :=
| ThrownValue (v : Value)
| ThrownError (e : Error).

(** The [Response] a [fetch] is fulfilled with, as far as the script reads
    it; [json] is how the promise of [data.json()] settles. *)
Record Response : Type := {
  ok : bool;
  statusText : string;
  json : Thrown + Json
}.

(** How the promise returned by [fetch] settles. *)
Inductive Settled : Type :=
| Rejected (reason : Thrown)
| Fulfilled (data : Response).

(** What the script does to the page.  [AddClickListeners selector] stands
    for [document.querySelectorAll(selector).forEach((btn) =>
    btn.addEventListener('click', ...))]. *)
Inductive Effect : Type :=
| Swal (title text icon : string)
| ConsoleErr (reason : Thrown)
| AppendChild (child : Element)
| AddClickListeners (selector : string).

(** Sequencing of steps that may throw. *)
Definition bind {E A B : Type} (m : E + A) (k : A -> E + B) : E + B :=
  match m with
  | inl e => inl e
  | inr a => k a
  end.

Notation "x <- m ;; k" := (bind m (fun x => k))
  (at level 61, m at next level, right associativity).

Section Script.

(** [Number.prototype.toFixed], and the [ToString] of a template
    substitution, which throws a [TypeError] on a value that has no primitive
    form (an object whose own [toString] cannot be called). *)
Variable toFixed : float -> Z -> string.
Variable ToString : Value -> Error + string.

(** The first [then] of both chains:
    [(data) => { if (data.ok) { return data.json(); } throw data.statusText; }] *)
Definition json_or_throw (data : Response) : Thrown + Json :=
  if ok data then json data else inl (ThrownValue (Str (statusText data))).

(** The call [v.toFixed(2)].  On a parsed JSON value only a number has a
    [toFixed] method. *)
Definition call_toFixed (v : Value) : Error + string :=
  match v with
  | Number x => inr (toFixed x 2)
  | Undefined => inl (TypeError "Cannot read properties of undefined")
  | Null => inl (TypeError "Cannot read properties of null")
  | _ => inl (TypeError "toFixed is not a function")
  end.

(** One substitution [${book.key}] of the template: the property is read and
    the value converted to a string; either step may throw.  No key the
    template reads is defined on a built-in prototype of a parsed value. *)
Definition substitute (book : Value) (key : string) : Error + string :=
  v <- get book key ;;
  ToString v.

(** [newBook(book)] on a [book] as it comes out of the parsed response: the
    substitutions of the template are evaluated from left to right, each
    converted with [ToString] as soon as it is evaluated.  When one throws,
    the [div] that was created is dropped. *)
Definition newBook_raw (book : Value) : Error + Element :=
  photo1 <- substitute book "photo" ;;
  name1 <- substitute book "name" ;;
  id1 <- substitute book "id" ;;
  price <- get book "price" ;;
  price1 <- call_toFixed price ;;
  name2 <- substitute book "name" ;;
  author1 <- substitute book "author" ;;
  id2 <- substitute book "id" ;;
  inr {| localName := "div";
         className := "column is-4";
         innerHTML :=
           nl ++
           "        <div class=" ++ dq ++ "card is-shady" ++ dq ++ ">" ++ nl ++
           "            <div class=" ++ dq ++ "card-image" ++ dq ++ ">" ++ nl ++
           "                <figure class=" ++ dq ++ "image is-4by3" ++ dq ++ ">" ++ nl ++
           "                    <img" ++ nl ++
           "                        src=" ++ dq ++ photo1 ++ dq ++ nl ++
           "                        alt=" ++ dq ++ name1 ++ dq ++ nl ++
           "                        class=" ++ dq ++ "modal-button" ++ dq ++ nl ++
           "                    />" ++ nl ++
           "                </figure>" ++ nl ++
           "            </div>" ++ nl ++
           "            <div class=" ++ dq ++ "card-content" ++ dq ++ ">" ++ nl ++
           "                <div class=" ++ dq ++ "content book" ++ dq ++ " data-id=" ++ dq ++ id1 ++ dq ++ ">" ++ nl ++
           "                    <div class=" ++ dq ++ "book-meta" ++ dq ++ ">" ++ nl ++
           "                        <p class=" ++ dq ++ "is-size-4" ++ dq ++ ">US$ " ++ price1 ++ "</p>" ++ nl ++
           "                        <p class=" ++ dq ++ "is-size-6" ++ dq ++ ">Available in stock: 5</p>" ++ nl ++
           "                        <h4 class=" ++ dq ++ "is-size-3 title" ++ dq ++ ">" ++ name2 ++ "</h4>" ++ nl ++
           "                        <p class=" ++ dq ++ "subtitle" ++ dq ++ ">" ++ author1 ++ "</p>" ++ nl ++
           "                    </div>" ++ nl ++
           "                    <div class=" ++ dq ++ "field has-addons" ++ dq ++ ">" ++ nl ++
           "                        <div class=" ++ dq ++ "control" ++ dq ++ ">" ++ nl ++
           "                            <input class=" ++ dq ++ "input" ++ dq ++ " type=" ++ dq ++ "text" ++ dq ++ " placeholder=" ++ dq ++ "Enter the ZIP code" ++ dq ++ " />" ++ nl ++
           "                        </div>" ++ nl ++
           "                        <div class=" ++ dq ++ "control" ++ dq ++ ">" ++ nl ++
           "                            <a class=" ++ dq ++ "button button-shipping is-info" ++ dq ++ " data-id=" ++ dq ++ id2 ++ dq ++ "> Calculate Shipping </a>" ++ nl ++
           "                        </div>" ++ nl ++
           "                    </div>" ++ nl ++
           "                    <button class=" ++ dq ++ "button button-buy is-success is-fullwidth" ++ dq ++ ">Buy</button>" ++ nl ++
           "                </div>" ++ nl ++
           "            </div>" ++ nl ++
           "        </div>" |}.

(** [data.forEach((book) => { books.appendChild(newBook(book)); })], with
    [books] the element [document.querySelector('.books')] of the page: the
    cards appended so far stay when a later book throws. *)
Fixpoint forEach_appendChild (data : list Json) : list Effect * option Thrown :=
  match data with
  | [] => ([], None)
  | book :: rest =>
      match newBook_raw (of_json book) with
      | inl e => ([], Some (ThrownError e))
      | inr card =>
          let '(effects, thrown) := forEach_appendChild rest in
          (AppendChild card :: effects, thrown)
      end
  end.

(** The second [then] of the listing chain: [(data) => { if (data) { ... } }]. *)
Definition render_products (data : Json) : list Effect * option Thrown :=
  if truthy (of_json data) then
    match data with
    | JArray items =>
        match forEach_appendChild items with
        | (effects, None) =>
            ((effects ++ [AddClickListeners ".button-shipping";
                          AddClickListeners ".button-buy"])%list, None)
        | (effects, Some reason) => (effects, Some reason)
        end
    | _ => ([], Some (ThrownError (TypeError "data.forEach is not a function")))
    end
  else ([], None).

(** The [catch] of the listing chain. *)
Definition catch_listing (err : Thrown) : list Effect :=
  [Swal "error" "error while listing products" "error"; ConsoleErr err].

(** The [DOMContentLoaded] listener, from the point where
    [fetch('http://localhost:3000/products')] has settled. *)
Definition DOMContentLoaded (settled : Settled) : list Effect :=
  match settled with
  | Rejected reason => catch_listing reason
  | Fulfilled data =>
      match json_or_throw data with
      | inl reason => catch_listing reason
      | inr parsed =>
          match render_products parsed with
          | (effects, None) => effects
          | (effects, Some reason) => (effects ++ catch_listing reason)%list
          end
      end
  end.




End Script.

End Page.

(* ================================================================= *)
(** ** Scenarios *)

Module Scenario.
Import JS Controller.

(** The backend cannot be reached: the stub reports a gRPC status object. *)
Definition unreachable : Oracle :=
  fun _ _ =>
    (Object [("code", Number 14%float);
             ("details", Str "No connection established")],
     Undefined).

(** The Rate Calculator answers 12.5, and echoes nothing. *)
Definition rate_reply : Oracle :=
  fun _ _ => (Null, Object [("value", Number 12.5%float)]).

(** Only the Rate Calculator is up. *)
Definition only_shipping : Oracle :=
  fun svc payload =>
    match svc with
    | GetShippingRate => rate_reply svc payload
    | _ => unreachable svc payload
    end.

(** The Catalog Provider answers with the three books. *)
Definition catalog_reply : Oracle :=
  fun _ _ =>
    (Null,
     Object [("products", Array (map Inventory.to_object Inventory.three_books))]).


(** A stand-in for the [ToString] of string concatenation: strings convert
    to themselves. *)
Definition to_string (v : Value) : string :=
  match v with
  | Str s => s
  | _ => "[object Object]"
  end.

(** The integer closest to [|x| * 10 ^ digits], the larger one on a tie. *)
Definition scaled (x : float) (digits : Z) : option Z :=
  match Prim2SF x with
  | S754_zero _ => Some 0
  | S754_finite _ m e =>
      if 0 <=? e then Some (Zpos m * 10 ^ digits * 2 ^ e)
      else Some ((2 * (Zpos m * 10 ^ digits) + 2 ^ (- e)) / (2 * 2 ^ (- e)))
  | _ => None
  end.

Fixpoint zeros (n : nat) : string :=
  match n with
  | O => EmptyString
  | S n' => String "0"%char (zeros n')
  end.

(** [Number.prototype.toFixed] for [0 <= digits], on every number below
    [10 ^ 21] in magnitude; larger ones print in full here. *)
Definition to_fixed (x : float) (digits : Z) : string :=
  match scaled x digits with
  | None =>
      if PrimFloat.is_nan x then "NaN"
      else if PrimFloat.ltb x 0 then "-Infinity" else "Infinity"
  | Some n =>
      let f := Z.to_nat digits in
      let all := Frontend.ToString_int n in
      let padded :=
        if (String.length all <=? f)%nat
        then zeros (f + 1 - String.length all) ++ all else all in
      let k := (String.length padded - f)%nat in
      (if PrimFloat.ltb x 0 then "-" else EmptyString) ++
      substring 0 k padded ++
      (if (f =? 0)%nat then EmptyString else "." ++ substring k f padded)
  end.

(** The same book, once with 5 copies and once with none. *)
Definition in_stock : Inventory.Product :=
  {| Inventory.id := 1; Inventory.name := "Book One"; Inventory.quantity := 5;
     Inventory.price := 10%float; Inventory.photo := "/img/1.png";
     Inventory.author := "A. Author" |}.

Definition sold_out : Inventory.Product :=
  {| Inventory.id := 1; Inventory.name := "Book One"; Inventory.quantity := 0;
     Inventory.price := 10%float; Inventory.photo := "/img/1.png";
     Inventory.author := "A. Author" |}.

End Scenario.

Module EdgeScenario.
Import JS Controller.

(** The backend reports no error and hands over nothing. *)
Definition empty_reply : Oracle := fun _ _ => (Null, Undefined).

(** The backend reports no error and hands over an object with no field. *)
Definition bare_reply : Oracle := fun _ _ => (Null, Object []).

(** A route that is not in the source: it answers with the parameter of the
    request before, which it keeps in a variable. *)
Definition remember (param : string) : Process.Code :=
  Process.Load "last" (fun last =>
    Process.Assign "last" (Str param) (Process.Reply 200 last Process.Finish)).

(** A catalog in which two books carry the id 1. *)
Definition reprint : Inventory.Product :=
  {| Inventory.id := 1; Inventory.name := "Book One, 2nd ed.";
     Inventory.quantity := 2; Inventory.price := 15%float;
     Inventory.photo := "/img/1b.png"; Inventory.author := "A. Author" |}.

Definition with_reprint : list Inventory.Product :=
  (Inventory.three_books ++ [reprint])%list.

End EdgeScenario.

Module PageScenario.
Import JS Page.

(** The integer a double stands for, when it stands for one. *)
Definition int_of_float (x : float) : option Z :=
  match Prim2SF x with
  | S754_zero _ => Some 0
  | S754_finite s m e =>
      if 0 <=? e then
        Some (if s then - (Zpos m * 2 ^ e) else Zpos m * 2 ^ e)
      else if Zpos m mod 2 ^ (- e) =? 0 then
        Some (if s then - (Zpos m / 2 ^ (- e)) else Zpos m / 2 ^ (- e))
      else None
  | _ => None
  end.

(** A stand-in for the [ToString] of a template substitution.  It is right
    on strings, integral numbers, booleans, [null] and [undefined], and on
    objects parsed from JSON: one with an own [toString] property has no
    primitive form, any other prints as [[object Object]].  It refuses the
    rest. *)
Definition to_string (v : Value) : Error + string :=
  match v with
  | Str s => inr s
  | Number x =>
      match int_of_float x with
      | Some z => inr (Frontend.ToString_int z)
      | None => inl (TypeError "not printed by this stand-in")
      end
  | Boolean true => inr "true"
  | Boolean false => inr "false"
  | Null => inr "null"
  | Undefined => inr "undefined"
  | Object fields =>
      match lookup "toString" fields with
      | Some _ => inl (TypeError "Cannot convert object to primitive value")
      | None => inr "[object Object]"
      end
  | _ => inl (TypeError "not printed by this stand-in")
  end.

(** The first of the three books as it arrives in the listing, and an entry
    that has no price. *)
Definition book_one : Json :=
  JObject [("id", JNumber 1%float); ("name", JString "Book One");
           ("quantity", JNumber 5%float); ("price", JNumber 10%float);
           ("photo", JString "/img/1.png"); ("author", JString "A. Author")].

Definition no_price : Json :=
  JObject [("id", JNumber 2%float); ("name", JString "Book Two")].

(** A book with a price whose [photo] is an object with an own [toString]
    that is no function. *)
Definition odd_photo : Json :=
  JObject [("id", JNumber 3%float); ("name", JString "Book Three");
           ("quantity", JNumber 9%float); ("price", JNumber 30%float);
           ("photo", JObject [("toString", JNumber 1%float)]);
           ("author", JString "C. Author")].



End PageScenario.

(* ================================================================= *)
(** * Properties of the Controller *)

Section ControllerFacts.
Import JS Controller.

Implicit Types (o : Oracle) (req : Request) (tr : list Event).

(** The run of each route, by the outcome the backend reports. *)
Lemma exec_get_products o :
  exec o get_products =
  ECall SearchAllProducts Null ::
  (let err := fst (o SearchAllProducts Null) in
   let data := snd (o SearchAllProducts Null) in
   if truthy err then [ELog err; EResponse 500 something_failed]
   else match get data "products" with
        | inr products => [EResponse 200 products]
        | inl e => [EThrow e]
        end).
Proof.
  cbn [exec get_products].
  destruct (truthy (fst (o SearchAllProducts Null))); [reflexivity|].
  destruct (get (snd (o SearchAllProducts Null)) "products"); reflexivity.
Qed.

Lemma exec_get_shipping o zipcode :
  let payload := Object [("zipcode", Str zipcode)] in
  exec o (get_shipping zipcode) =
  ECall GetShippingRate payload ::
  (let err := fst (o GetShippingRate payload) in
   let data := snd (o GetShippingRate payload) in
   if truthy err then [ELog err; EResponse 500 something_failed]
   else match get data "value" with
        | inr value =>
            [EResponse 200 (Object [("cep", Str zipcode); ("value", value)])]
        | inl e => [EThrow e]
        end).
Proof.
  cbn [exec get_shipping].
  destruct (truthy (fst (o GetShippingRate _))); [reflexivity|].
  destruct (get (snd (o GetShippingRate _)) "value"); reflexivity.
Qed.

Lemma exec_get_product o id :
  let payload := Object [("id", Str id)] in
  exec o (get_product id) =
  ECall SearchProductByID payload ::
  (let err := fst (o SearchProductByID payload) in
   if truthy err then [ELog err; EResponse 500 something_failed]
   else [EResponse 200 (snd (o SearchProductByID payload))]).
Proof.
  cbn [exec get_product].
  destruct (truthy (fst (o SearchProductByID _))); reflexivity.
Qed.

(** Every route makes its backend call first, whatever the backends answer. *)
Lemma calls_handler o req :
  calls (exec o (handler req)) =
  match req with
  | GetProducts => [(SearchAllProducts, Null)]
  | GetShipping zipcode => [(GetShippingRate, Object [("zipcode", Str zipcode)])]
  | GetProduct id => [(SearchProductByID, Object [("id", Str id)])]
  end.
Proof.
  destruct req as [|zipcode|id]; cbn [handler].
  - rewrite exec_get_products. cbn [calls]. f_equal.
    destruct (truthy _); [reflexivity|]. destruct (get _ _); reflexivity.
  - rewrite exec_get_shipping. cbn [calls]. f_equal.
    destruct (truthy _); [reflexivity|]. destruct (get _ _); reflexivity.
  - rewrite exec_get_product. cbn [calls]. f_equal.
    destruct (truthy _); reflexivity.
Qed.

(** A run is decided by the reply to the calls it makes. *)
Lemma exec_same_replies o1 o2 req :
  same_replies (calls (exec o1 (handler req))) o1 o2 ->
  exec o1 (handler req) = exec o2 (handler req).
Proof.
  intros Hsame. rewrite calls_handler in Hsame.
  destruct req as [|zipcode|id]; cbn [handler];
    [ rewrite !exec_get_products | rewrite !exec_get_shipping
    | rewrite !exec_get_product ];
    cbv zeta; rewrite (Hsame _ _ (or_introl eq_refl)); reflexivity.
Qed.

(** C1. When the backend call of [/products] or of [/shipping/:zipcode] fails
    (the callback receives a truthy [err]), the run is: the call, [err] written
    to the server's console, and the one response with status 500 and body
    [{error: 'something failed :('}].  The body is that constant: nothing of
    [err] is in it. *)
Theorem gateway_failure_is_generic o zipcode :
  (truthy (fst (o SearchAllProducts Null)) = true ->
   exec o get_products =
   [ECall SearchAllProducts Null;
    ELog (fst (o SearchAllProducts Null));
    EResponse 500 (Object [("error", Str "something failed :(")])])
  /\
  (truthy (fst (o GetShippingRate (Object [("zipcode", Str zipcode)]))) = true ->
   exec o (get_shipping zipcode) =
   [ECall GetShippingRate (Object [("zipcode", Str zipcode)]);
    ELog (fst (o GetShippingRate (Object [("zipcode", Str zipcode)])));
    EResponse 500 (Object [("error", Str "something failed :(")])]).
Proof.
  split; intros Herr.
  - rewrite exec_get_products. cbv zeta. now rewrite Herr.
  - rewrite exec_get_shipping. cbv zeta. now rewrite Herr.
Qed.

(** C2. When the backend answers [/shipping/:zipcode] without error and with
    cost [v] in its [value] field, the response is status 200 with body
    [{cep: p, value: v}], [p] being the postal code of the request. *)
Theorem shipping_quote_echoes_postal_code o (p : string) (v : Value) :
  truthy (fst (o GetShippingRate (Object [("zipcode", Str p)]))) = false ->
  get (snd (o GetShippingRate (Object [("zipcode", Str p)]))) "value" = inr v ->
  responses (exec o (get_shipping p)) =
  [(200, Object [("cep", Str p); ("value", v)])].
Proof.
  intros Hok Hvalue. rewrite exec_get_shipping. cbv zeta.
  now rewrite Hok, Hvalue.
Qed.

(** C5. When the backend answers [/products] without error and with the
    sequence [items] in its [products] field, the response is status 200 and
    its body is that very sequence. *)
Theorem list_products_passes_through o (items : list Value) :
  truthy (fst (o SearchAllProducts Null)) = false ->
  get (snd (o SearchAllProducts Null)) "products" = inr (Array items) ->
  responses (exec o get_products) = [(200, Array items)].
Proof.
  intros Hok Hproducts. rewrite exec_get_products. cbv zeta.
  now rewrite Hok, Hproducts.
Qed.

(** C6. Every request to a route makes exactly one backend call, whatever the
    backends answer: [SearchAllProducts] for [/products], [GetShippingRate]
    for [/shipping/:zipcode], [SearchProductByID] for [/product/:id]. *)
Theorem one_backend_call_per_request o :
  (forall req, List.length (calls (exec o (handler req))) = 1%nat) /\
  calls (exec o get_products) = [(SearchAllProducts, Null)] /\
  (forall zipcode,
     calls (exec o (get_shipping zipcode)) =
     [(GetShippingRate, Object [("zipcode", Str zipcode)])]) /\
  (forall id,
     calls (exec o (get_product id)) =
     [(SearchProductByID, Object [("id", Str id)])]).
Proof.
  repeat split.
  - intros req. rewrite calls_handler. now destruct req.
  - exact (calls_handler o GetProducts).
  - intros zipcode. exact (calls_handler o (GetShipping zipcode)).
  - intros id. exact (calls_handler o (GetProduct id)).
Qed.

Lemma gateway_failure_is_generic_witness :
  (truthy (fst (Scenario.unreachable SearchAllProducts Null)) = true /\
   exec Scenario.unreachable get_products =
   [ECall SearchAllProducts Null;
    ELog (Object [("code", Number 14%float);
                  ("details", Str "No connection established")]);
    EResponse 500 (Object [("error", Str "something failed :(")])]) /\
  (truthy (fst (Scenario.unreachable GetShippingRate
                  (Object [("zipcode", Str "30130-000")]))) = true /\
   exec Scenario.unreachable (get_shipping "30130-000") =
   [ECall GetShippingRate (Object [("zipcode", Str "30130-000")]);
    ELog (Object [("code", Number 14%float);
                  ("details", Str "No connection established")]);
    EResponse 500 (Object [("error", Str "something failed :(")])]).
Proof.
  destruct (gateway_failure_is_generic Scenario.unreachable "30130-000")
    as [Hproducts Hshipping].
  split; (split; [reflexivity|]).
  - apply Hproducts. reflexivity.
  - apply Hshipping. reflexivity.
Defined.

Lemma shipping_quote_echoes_postal_code_witness :
  responses (exec Scenario.rate_reply (get_shipping "30130-000")) =
  [(200, Object [("cep", Str "30130-000"); ("value", Number 12.5%float)])].
Proof.
  apply (shipping_quote_echoes_postal_code Scenario.rate_reply "30130-000");
    reflexivity.
Defined.

Lemma list_products_passes_through_witness :
  responses (exec Scenario.catalog_reply get_products) =
  [(200, Array (map Inventory.to_object Inventory.three_books))].
Proof.
  apply (list_products_passes_through Scenario.catalog_reply); reflexivity.
Defined.

End ControllerFacts.

(* ================================================================= *)
(** * The Controller process is stateless *)

Section ProcessFacts.
Import JS Controller.
Import Process.

Implicit Types (o : Oracle) (req : Request) (r : Running) (p : State).

(** No route touches a variable: a run leaves the variables as they were, and
    what it does is what [Controller.handler] does. *)
Lemma run_handler o req (vs : Store) :
  run o (Process.handler req) vs = (vs, exec o (Controller.handler req)).
Proof.
  destruct req as [|zipcode|id];
    cbn [Process.handler Controller.handler
         Process.get_products Process.get_shipping Process.get_product
         Controller.get_products Controller.get_shipping Controller.get_product
         run exec res_status_send res_json].
  - destruct (truthy _); [reflexivity|]. destruct (get _ _); reflexivity.
  - destruct (truthy _); [reflexivity|]. destruct (get _ _); reflexivity.
  - destruct (truthy _); reflexivity.
Qed.

Lemma step_running r req o :
  step (Some r) req o =
  (if threw (exec o (Controller.handler req)) then None
   else Some {| vars := vars r;
                stderr := (stderr r ++ console (exec o (Controller.handler req)))%list |},
   responses (exec o (Controller.handler req))).
Proof. unfold step. now rewrite run_handler. Qed.

(** A process that is still running after a sequence of requests has the
    variables it started with. *)
Lemma serve_keeps_vars (reqs : list (Request * Oracle)) r r' :
  fst (serve (Some r) reqs) = Some r' -> vars r' = vars r.
Proof.
  revert r. induction reqs as [|[req o] rest IH]; intros r.
  - cbn [serve fst]. now intros [= <-].
  - cbn [serve]. rewrite step_running.
    destruct (threw (exec o (Controller.handler req))).
    + assert (Hdead : forall l, fst (serve None l) = None).
      { clear. induction l as [|[q o'] l IHl]; [reflexivity|].
        cbn [serve step]. destruct (serve None l). exact IHl. }
      specialize (Hdead rest). destruct (serve None rest) as [final resps].
      cbn [fst] in *. congruence.
    + specialize (IH {| vars := vars r;
                        stderr := (stderr r ++ console (exec o (Controller.handler req)))%list |}).
      destruct (serve _ rest) as [final resps]. cbn [fst] in *.
      intros Hfinal. now rewrite (IH Hfinal).
Qed.

(** Serving a sequence and then one more request. *)
Lemma serve_snoc p (reqs : list (Request * Oracle)) req o :
  serve p (reqs ++ [(req, o)]) =
  (fst (step (fst (serve p reqs)) req o),
   (snd (serve p reqs) ++ [snd (step (fst (serve p reqs)) req o)])%list).
Proof.
  revert p. induction reqs as [|[q o'] rest IH]; intros p.
  - cbn [app serve fst snd]. now destruct (step p req o).
  - cbn [app serve]. destruct (step p q o') as [p' resp].
    rewrite IH. destruct (serve p' rest) as [final resps]. reflexivity.
Qed.

Lemma last_snoc {A} (l : list A) (x d : A) : last (l ++ [x]) d = x.
Proof.
  induction l as [|a l IH]; [reflexivity|].
  cbn [app]. destruct (l ++ [x])%list eqn:E; [now destruct l|exact IH].
Qed.

(** C8. Take two Controller processes, with any variables and any console,
    each still running after any sequence of earlier requests.  A request
    with the same parameters, answered by the backend in the same way, gets
    the same response from both, and neither process has had a variable
    changed by the requests it served. *)
Theorem gateway_stateless
  (start1 start2 now1 now2 : Running)
  (before1 before2 : list (Request * Oracle)) req o1 o2 :
  fst (serve (Some start1) before1) = Some now1 ->
  fst (serve (Some start2) before2) = Some now2 ->
  same_replies (calls (snd (run o1 (Process.handler req) (vars now1)))) o1 o2 ->
  last (snd (serve (Some start1) (before1 ++ [(req, o1)]))) [] =
  last (snd (serve (Some start2) (before2 ++ [(req, o2)]))) []
  /\ vars now1 = vars start1 /\ vars now2 = vars start2.
Proof.
  intros Hnow1 Hnow2 Hsame. rewrite run_handler in Hsame. cbn [snd] in Hsame.
  split; [|split; eapply serve_keeps_vars; eassumption].
  rewrite !serve_snoc. cbn [snd]. rewrite !last_snoc, Hnow1, Hnow2.
  rewrite !step_running. cbn [snd].
  now rewrite (exec_same_replies o1 o2 req Hsame).
Qed.

Lemma gateway_stateless_witness :
  last (snd (serve (Some {| vars := []; stderr := [] |})
               ([] ++ [(GetShipping "30130-000", Scenario.rate_reply)]))) [] =
  last (snd (serve (Some {| vars := [("last", Str "01310-100")];
                            stderr := [Str "earlier failure"] |})
               ([(GetProducts, Scenario.unreachable)] ++
                [(GetShipping "30130-000", Scenario.only_shipping)]))) [].
Proof.
  apply (gateway_stateless
           {| vars := []; stderr := [] |}
           {| vars := [("last", Str "01310-100")];
              stderr := [Str "earlier failure"] |}
           {| vars := []; stderr := [] |}
           {| vars := [("last", Str "01310-100")];
              stderr := [Str "earlier failure";
                         fst (Scenario.unreachable SearchAllProducts Null)] |}
           [] [(GetProducts, Scenario.unreachable)]
           (GetShipping "30130-000") Scenario.rate_reply Scenario.only_shipping).
  - reflexivity.
  - reflexivity.
  - intros svc payload [Hcall|[]]. injection Hcall as <- <-. reflexivity.
Defined.

(** The language of [Process.Code] is not stateless by itself: a route that
    keeps something in a variable answers the same request differently. *)
Remark remember_is_not_stateless :
  responses (snd (run Scenario.rate_reply (EdgeScenario.remember "30130-000")
                    [("last", Str "01310-100")]))
  <> responses (snd (run Scenario.rate_reply (EdgeScenario.remember "30130-000")
                       [("last", Str "20040-002")])).
Proof. cbn. discriminate. Qed.

End ProcessFacts.

(* ================================================================= *)
(** * Properties of the Inventory look-up *)

Section InventoryFacts.
Import JS Controller Inventory.

(** [find] returns the first element that passes the test. *)
Lemma find_first {A} (test : A -> bool) (l : list A) (x : A) :
  find test l = Some x ->
  exists before after,
    l = (before ++ x :: after)%list /\ test x = true /\
    forall y, In y before -> test y = false.
Proof.
  induction l as [|a l IH]; cbn [find]; [discriminate|].
  destruct (test a) eqn:Ha.
  - intros [= ->]. exists [], l. repeat split; [assumption|]. intros y [].
  - intros Hfind. destruct (IH Hfind) as (before & after & -> & Hx & Hbefore).
    exists (a :: before), after. repeat split; [assumption|].
    intros y [<-|Hy]; [assumption|]. now apply Hbefore.
Qed.

Lemma find_present (q : Z) (products : list Product) :
  In q (map id products) ->
  exists p, find (fun product => id product =? q) products = Some p.
Proof.
  intros Hin. apply in_map_iff in Hin as (p0 & Hid & Hp0).
  destruct (find (fun product => id product =? q) products) as [p|] eqn:Hfind.
  - now exists p.
  - apply (find_none _ _ Hfind) in Hp0. cbn beta in Hp0. lia.
Qed.

Lemma find_absent (q : Z) (products : list Product) :
  ~ In q (map id products) ->
  find (fun product => id product =? q) products = None.
Proof.
  intros Hnot.
  destruct (find (fun product => id product =? q) products) as [p|] eqn:Hfind;
    [|reflexivity].
  apply find_some in Hfind as [Hp Hid]. exfalso. apply Hnot.
  apply in_map_iff. exists p. split; [lia|assumption].
Qed.

(** C4, as the code has it.  [SearchProductByID] always hands its callback a
    [null] error.  For an id in the catalog the result is the first product
    in load order whose id is the queried one; for an id not in the catalog
    the result is [undefined], and no condition is signalled. *)
Theorem SearchProductByID_first_match_or_undefined
  (products : list Product) (payload : ServerCall) :
  let q := Payload.id (request payload) in
  fst (SearchProductByID products payload) = Null /\
  (In q (map id products) ->
   exists before p after,
     products = (before ++ p :: after)%list /\
     ~ In q (map id before) /\
     id p = q /\
     snd (SearchProductByID products payload) = Some p) /\
  (~ In q (map id products) ->
   snd (SearchProductByID products payload) = None).
Proof.
  intros q. cbn [SearchProductByID fst snd]. fold q.
  split; [reflexivity|]. split.
  - intros Hin. destruct (find_present q products Hin) as [p Hfind].
    destruct (find_first _ _ _ Hfind) as (before & after & Hsplit & Hid & Hbefore).
    exists before, p, after. repeat split; try assumption; [|lia].
    intros Hq. apply in_map_iff in Hq as (y & Hy & Hyin).
    specialize (Hbefore y Hyin). cbn beta in Hbefore. lia.
  - apply find_absent.
Qed.

Lemma SearchProductByID_first_match_or_undefined_witness :
  (In 2 (map id three_books) /\
   exists before p after,
     three_books = (before ++ p :: after)%list /\
     ~ In 2 (map id before) /\
     id p = 2 /\
     snd (SearchProductByID three_books {| request := {| Payload.id := 2 |} |})
     = Some p) /\
  (~ In 999 (map id three_books) /\
   snd (SearchProductByID three_books {| request := {| Payload.id := 999 |} |})
   = None).
Proof.
  split.
  - split; [cbn; lia|].
    apply (proj1 (proj2 (SearchProductByID_first_match_or_undefined
                           three_books {| request := {| Payload.id := 2 |} |}))).
    cbn; lia.
  - assert (Habsent : ~ In 999 (map id three_books)) by (cbn; lia).
    split; [exact Habsent|].
    apply (proj2 (proj2 (SearchProductByID_first_match_or_undefined
                           three_books {| request := {| Payload.id := 999 |} |}))).
    exact Habsent.
Defined.

(** C4 as the spec words it fails: 999 is no id of the three books, yet the
    callback receives a falsy error ([null]) together with [undefined]. *)
Lemma SearchProductByID_absent_signals_nothing :
  ~ In 999 (map id three_books) /\
  truthy (fst (SearchProductByID three_books
                 {| request := {| Payload.id := 999 |} |})) = false /\
  SearchProductByID three_books {| request := {| Payload.id := 999 |} |}
  = (Null, None).
Proof.
  split; [cbn; lia|]. split; reflexivity.
Qed.

(** The [/product/:id] route answers 200 or 500, and nothing else. *)
Lemma get_product_statuses (o : Oracle) (i : string) status body :
  In (status, body) (responses (exec o (get_product i))) ->
  status = 200 \/ status = 500.
Proof.
  rewrite exec_get_product. cbv zeta.
  destruct (truthy _); cbn [responses In]; intros [[= <- _]|[]]; auto.
Qed.

(** C3, as the code has it.  The [/product/:id] route has no not-found
    answer, for an id that is in the catalog or not: when the backend call
    reports an error it answers 500 with the generic body, otherwise 200 with
    the value it received, and no other status occurs. *)
Theorem get_product_never_404 (o : Oracle) (i : string) :
  (truthy (fst (o Controller.SearchProductByID (Object [("id", Str i)]))) = true ->
   exec o (get_product i) =
   [ECall Controller.SearchProductByID (Object [("id", Str i)]);
    ELog (fst (o Controller.SearchProductByID (Object [("id", Str i)])));
    EResponse 500 (Object [("error", Str "something failed :(")])])
  /\
  (truthy (fst (o Controller.SearchProductByID (Object [("id", Str i)]))) = false ->
   exec o (get_product i) =
   [ECall Controller.SearchProductByID (Object [("id", Str i)]);
    EResponse 200 (snd (o Controller.SearchProductByID (Object [("id", Str i)])))])
  /\
  (forall status body,
     In (status, body) (responses (exec o (get_product i))) ->
     status = 200 \/ status = 500).
Proof.
  split; [|split].
  - intros Herr. rewrite exec_get_product. cbv zeta. now rewrite Herr.
  - intros Herr. rewrite exec_get_product. cbv zeta. now rewrite Herr.
  - apply get_product_statuses.
Qed.

Lemma get_product_never_404_witness :
  exec Scenario.unreachable (get_product "999") =
  [ECall Controller.SearchProductByID (Object [("id", Str "999")]);
   ELog (fst (Scenario.unreachable Controller.SearchProductByID
                (Object [("id", Str "999")])));
   EResponse 500 (Object [("error", Str "something failed :(")])]
  /\
  exec EdgeScenario.empty_reply (get_product "999") =
  [ECall Controller.SearchProductByID (Object [("id", Str "999")]);
   EResponse 200 Undefined].
Proof.
  split.
  - apply (proj1 (get_product_never_404 Scenario.unreachable "999")).
    reflexivity.
  - apply (proj1 (proj2 (get_product_never_404 EdgeScenario.empty_reply "999"))).
    reflexivity.
Defined.

(** C3 as the spec words it fails: no book has the id 999, and whatever the
    backend answers, the request for it gets one response whose status is not
    404. *)
Lemma get_product_999_is_not_404 :
  ~ In 999 (map id three_books) /\
  (forall o : Oracle,
     exists status body,
       responses (exec o (get_product "999")) = [(status, body)] /\
       status <> 404).
Proof.
  split; [cbn; lia|]. intros o. rewrite exec_get_product. cbv zeta.
  destruct (truthy _); cbn [responses]; do 2 eexists; (split; [reflexivity|lia]).
Qed.

End InventoryFacts.

(* ================================================================= *)
(** * Properties of the storefront script *)

Section FrontendFacts.
Import JS Inventory Frontend.

Variable toFixed : float -> Z -> string.
Variable ToString : Value -> string.

(** Neither parameter of [calculateShipping], nor a name the script declares,
    is called [fetch] or [zipcode]: both are looked up in the browser's
    globals. *)
Lemma calculateShipping_unfold (host : Scope) (id cep : Value) :
  calculateShipping ToString host id cep =
  match resolve "fetch" host with
  | None => Threw (ReferenceError "fetch")
  | Some fetch =>
      match resolve "zipcode" host with
      | None => Threw (ReferenceError "zipcode")
      | Some zipcode =>
          match fetch with
          | Func _ =>
              Requested ("http://localhost:3000/shipping/" ++ ToString zipcode)
          | _ => Threw (TypeError "fetch is not a function")
          end
      end
  end.
Proof. reflexivity. Qed.

(** C9. Where no global is named [zipcode], every call of
    [calculateShipping] ends in a reference error with no request issued
    (on [zipcode] itself wherever [fetch] exists), so does every click on a
    shipping button, and the outcome does not depend on [cep]. *)
Theorem calculateShipping_reference_error (host : Scope) (id cep : Value) :
  resolve "zipcode" host = None ->
  (exists name,
     calculateShipping ToString host id cep = Threw (ReferenceError name)) /\
  (resolve "fetch" host <> None ->
   calculateShipping ToString host id cep = Threw (ReferenceError "zipcode")) /\
  (forall cep',
     calculateShipping ToString host id cep'
     = calculateShipping ToString host id cep) /\
  (forall data_id input_value,
     exists name,
       shipping_click ToString host data_id input_value
       = Threw (ReferenceError name)).
Proof.
  intros Hunbound.
  assert (Hall : forall i c, exists name,
             calculateShipping ToString host i c = Threw (ReferenceError name)).
  { intros i c. rewrite calculateShipping_unfold, Hunbound.
    destruct (resolve "fetch" host); eauto. }
  repeat split.
  - apply Hall.
  - intros Hfetch. rewrite calculateShipping_unfold, Hunbound.
    now destruct (resolve "fetch" host).
  - intros data_id input_value. apply Hall.
Qed.

Lemma append_shift (p s before rest : string) :
  s = before ++ rest -> p ++ s = (p ++ before) ++ rest.
Proof.
  intros ->. induction p as [|c p IH]; cbn [append]; [reflexivity|].
  now rewrite IH.
Qed.

(** Peels the pieces of a concatenation one at a time until the one that
    starts with [stop] is in front. *)
Ltac peel_until stop :=
  lazymatch goal with
  | |- stop ++ _ = _ => idtac
  | |- _ ++ _ = _ => eapply append_shift; peel_until stop
  end.

(** C10. Two books that differ in nothing but [quantity] get the same
    element from [newBook], and the markup of every book carries the literal
    text [Available in stock: 5]. *)
Theorem newBook_ignores_quantity (b1 b2 : Product) :
  id b1 = id b2 ->
  name b1 = name b2 ->
  price b1 = price b2 ->
  photo b1 = photo b2 ->
  author b1 = author b2 ->
  newBook toFixed b1 = newBook toFixed b2 /\
  exists before after,
    innerHTML (newBook toFixed b1) = before ++ "Available in stock: 5" ++ after.
Proof.
  intros Hid Hname Hprice Hphoto Hauthor. split.
  - unfold newBook. now rewrite Hid, Hname, Hprice, Hphoto, Hauthor.
  - do 2 eexists.
    lazy beta iota delta [newBook innerHTML].
    peel_until ">Available in stock: 5</p>".
    change (">Available in stock: 5</p>" ++ ?rest)
      with (">" ++ "Available in stock: 5" ++ "</p>" ++ rest).
    reflexivity.
Qed.

End FrontendFacts.

Lemma calculateShipping_reference_error_witness :
  Frontend.resolve "zipcode" Frontend.browser = None /\
  Frontend.calculateShipping Scenario.to_string Frontend.browser
    (JS.Str "1") (JS.Str "30130-000")
  = Frontend.Threw (JS.ReferenceError "zipcode").
Proof.
  split; [reflexivity|].
  apply (proj1 (proj2 (calculateShipping_reference_error Scenario.to_string
                         Frontend.browser (JS.Str "1") (JS.Str "30130-000")
                         eq_refl))).
  discriminate.
Defined.

Lemma newBook_ignores_quantity_witness :
  Inventory.quantity Scenario.in_stock <> Inventory.quantity Scenario.sold_out /\
  Frontend.newBook Scenario.to_fixed Scenario.in_stock
  = Frontend.newBook Scenario.to_fixed Scenario.sold_out.
Proof.
  split; [discriminate|].
  apply (proj1 (newBook_ignores_quantity Scenario.to_fixed
                  Scenario.in_stock Scenario.sold_out
                  eq_refl eq_refl eq_refl eq_refl eq_refl)).
Defined.

(* ================================================================= *)
(** * Further properties of the Controller *)

Section ControllerEdges.
Import JS Controller.

Implicit Types (o : Oracle) (req : Request).

(** The run of a route, whichever it is, as a function of the reply to its
    call. *)
Lemma exec_handler_cases o req :
  exists svc payload,
    calls (exec o (handler req)) = [(svc, payload)] /\
    ((truthy (fst (o svc payload)) = true /\
      exec o (handler req) =
      [ECall svc payload; ELog (fst (o svc payload));
       EResponse 500 something_failed])
     \/
     (truthy (fst (o svc payload)) = false /\
      ((exists body, exec o (handler req) = [ECall svc payload; EResponse 200 body])
       \/
       (exists e, exec o (handler req) = [ECall svc payload; EThrow e])))).
Proof.
  destruct req as [|zipcode|id]; cbn [handler].
  - exists SearchAllProducts, Null. split; [apply (calls_handler o GetProducts)|].
    rewrite exec_get_products. cbv zeta.
    destruct (truthy _); [left; auto|right; split; [reflexivity|]].
    destruct (get _ _); [right|left]; eauto.
  - exists GetShippingRate, (Object [("zipcode", Str zipcode)]).
    split; [apply (calls_handler o (GetShipping zipcode))|].
    rewrite exec_get_shipping. cbv zeta.
    destruct (truthy _); [left; auto|right; split; [reflexivity|]].
    destruct (get _ _); [right|left]; eauto.
  - exists SearchProductByID, (Object [("id", Str id)]).
    split; [apply (calls_handler o (GetProduct id))|].
    rewrite exec_get_product. cbv zeta.
    destruct (truthy _); [left; auto|right; split; [reflexivity|]].
    left; eauto.
Qed.

(** X1. A request is never answered twice: every run of a route sends at most
    one response, and it sends none exactly when the callback threw. *)
Theorem at_most_one_response o req :
  (List.length (responses (exec o (handler req))) <= 1)%nat /\
  (responses (exec o (handler req)) = [] <->
   exists e, In (EThrow e) (exec o (handler req))).
Proof.
  destruct (exec_handler_cases o req)
    as (svc & payload & _ & [[_ ->]|[_ [[body ->]|[e ->]]]]);
    cbn [responses List.length In]; (split; [lia|]); split.
  - discriminate.
  - intros [e [H|[H|[H|[]]]]]; discriminate H.
  - discriminate.
  - intros [e [H|[H|[]]]]; discriminate H.
  - intros _. exists e. auto.
  - reflexivity.
Qed.

(** X2. On every route the status is 500 exactly when the backend reported an
    error, and the console is written exactly then: an error gives the one
    generic 500 response and one console line; no error gives an empty
    console and no status other than 200. *)
Theorem status_follows_backend_error o req svc payload :
  In (svc, payload) (calls (exec o (handler req))) ->
  (truthy (fst (o svc payload)) = true ->
   responses (exec o (handler req)) = [(500, something_failed)] /\
   console (exec o (handler req)) = [fst (o svc payload)]) /\
  (truthy (fst (o svc payload)) = false ->
   console (exec o (handler req)) = [] /\
   forall status body,
     In (status, body) (responses (exec o (handler req))) -> status = 200).
Proof.
  intros Hcall.
  destruct (exec_handler_cases o req) as (svc' & payload' & Hcalls & Hcases).
  rewrite Hcalls in Hcall. destruct Hcall as [[= <- <-]|[]].
  destruct Hcases as [[Herr ->]|[Herr [[body ->]|[e ->]]]];
    split; intros Herr'; try congruence; cbn [responses console In]; split;
    try reflexivity.
  - intros status b [[= <- _]|[]]. reflexivity.
  - intros status b [].
Qed.

(** X3. A reply with no error and no data ([undefined] or [null]) makes the
    callbacks of [/products] and [/shipping/:zipcode] throw a [TypeError]
    before anything is sent, so the client gets no response; [/product/:id]
    answers 200 with that empty value. *)
Theorem reply_without_data o (zipcode id : string) :
  (truthy (fst (o SearchAllProducts Null)) = false ->
   snd (o SearchAllProducts Null) = Undefined \/
   snd (o SearchAllProducts Null) = Null ->
   exists what,
     exec o get_products = [ECall SearchAllProducts Null; EThrow (TypeError what)])
  /\
  (truthy (fst (o GetShippingRate (Object [("zipcode", Str zipcode)]))) = false ->
   snd (o GetShippingRate (Object [("zipcode", Str zipcode)])) = Undefined \/
   snd (o GetShippingRate (Object [("zipcode", Str zipcode)])) = Null ->
   exists what,
     exec o (get_shipping zipcode) =
     [ECall GetShippingRate (Object [("zipcode", Str zipcode)]);
      EThrow (TypeError what)])
  /\
  (truthy (fst (o SearchProductByID (Object [("id", Str id)]))) = false ->
   exec o (get_product id) =
   [ECall SearchProductByID (Object [("id", Str id)]);
    EResponse 200 (snd (o SearchProductByID (Object [("id", Str id)])))]).
Proof.
  repeat split.
  - intros Herr Hdata. rewrite exec_get_products. cbv zeta. rewrite Herr.
    destruct Hdata as [-> | ->]; cbn [get]; eauto.
  - intros Herr Hdata. rewrite exec_get_shipping. cbv zeta. rewrite Herr.
    destruct Hdata as [-> | ->]; cbn [get]; eauto.
  - intros Herr. rewrite exec_get_product. cbv zeta. now rewrite Herr.
Qed.

(** X4. A reply with no error whose data object lacks the field the route
    reads is answered with status 200 all the same: [/shipping/:zipcode]
    sends [{cep, value: undefined}] and [/products] sends [undefined]. *)
Theorem reply_missing_field o (zipcode : string) :
  (forall fields,
     truthy (fst (o SearchAllProducts Null)) = false ->
     snd (o SearchAllProducts Null) = Object fields ->
     lookup "products" fields = None ->
     responses (exec o get_products) = [(200, Undefined)])
  /\
  (forall fields,
     truthy (fst (o GetShippingRate (Object [("zipcode", Str zipcode)]))) = false ->
     snd (o GetShippingRate (Object [("zipcode", Str zipcode)])) = Object fields ->
     lookup "value" fields = None ->
     responses (exec o (get_shipping zipcode)) =
     [(200, Object [("cep", Str zipcode); ("value", Undefined)])]).
Proof.
  split; intros fields Herr Hdata Hmissing.
  - rewrite exec_get_products. cbv zeta. rewrite Herr, Hdata. cbn [get].
    now rewrite Hmissing.
  - rewrite exec_get_shipping. cbv zeta. rewrite Herr, Hdata. cbn [get].
    now rewrite Hmissing.
Qed.

Lemma status_follows_backend_error_witness :
  (responses (exec Scenario.unreachable (handler GetProducts))
   = [(500, something_failed)] /\
   console (exec Scenario.unreachable (handler GetProducts))
   = [fst (Scenario.unreachable SearchAllProducts Null)]) /\
  (console (exec Scenario.catalog_reply (handler GetProducts)) = [] /\
   forall status body,
     In (status, body) (responses (exec Scenario.catalog_reply (handler GetProducts))) ->
     status = 200).
Proof.
  split.
  - apply (proj1 (status_follows_backend_error Scenario.unreachable GetProducts
                    SearchAllProducts Null (or_introl eq_refl))).
    reflexivity.
  - apply (proj2 (status_follows_backend_error Scenario.catalog_reply GetProducts
                    SearchAllProducts Null (or_introl eq_refl))).
    reflexivity.
Defined.

Lemma reply_without_data_witness :
  (exists what,
     exec EdgeScenario.empty_reply get_products =
     [ECall SearchAllProducts Null; EThrow (TypeError what)]) /\
  (exists what,
     exec EdgeScenario.empty_reply (get_shipping "30130-000") =
     [ECall GetShippingRate (Object [("zipcode", Str "30130-000")]);
      EThrow (TypeError what)]) /\
  exec EdgeScenario.empty_reply (get_product "1") =
  [ECall SearchProductByID (Object [("id", Str "1")]); EResponse 200 Undefined].
Proof.
  destruct (reply_without_data EdgeScenario.empty_reply "30130-000" "1")
    as (Hproducts & Hshipping & Hproduct).
  split; [|split].
  - apply Hproducts; [reflexivity|left; reflexivity].
  - apply Hshipping; [reflexivity|left; reflexivity].
  - apply Hproduct. reflexivity.
Defined.

Lemma reply_missing_field_witness :
  responses (exec EdgeScenario.bare_reply get_products) = [(200, Undefined)] /\
  responses (exec EdgeScenario.bare_reply (get_shipping "30130-000")) =
  [(200, Object [("cep", Str "30130-000"); ("value", Undefined)])].
Proof.
  destruct (reply_missing_field EdgeScenario.bare_reply "30130-000")
    as (Hproducts & Hshipping).
  split.
  - apply (Hproducts []); reflexivity.
  - apply (Hshipping []); reflexivity.
Defined.

End ControllerEdges.

(* ================================================================= *)
(** * Further properties of the Inventory look-up *)

Section InventoryEdges.
Import JS Controller Inventory.

(** X5. In a catalog whose ids are pairwise distinct, every product is found
    by its own id. *)
Theorem SearchProductByID_finds_each_product
  (products : list Product) (p : Product) :
  NoDup (map id products) ->
  In p products ->
  SearchProductByID products {| request := {| Payload.id := id p |} |}
  = (Null, Some p).
Proof.
  unfold SearchProductByID. cbn [request Payload.id]. intros Hnodup Hin. f_equal.
  induction products as [|a rest IH]; [destruct Hin|].
  cbn [map] in Hnodup. apply NoDup_cons_iff in Hnodup as [Hfresh Hrest].
  cbn [find]. destruct (id a =? id p) eqn:Hid.
  - destruct Hin as [->|Hin]; [reflexivity|].
    exfalso. apply Hfresh. apply Z.eqb_eq in Hid. rewrite Hid.
    now apply in_map.
  - destruct Hin as [->|Hin]; [rewrite Z.eqb_refl in Hid; discriminate|].
    now apply IH.
Qed.

Lemma SearchProductByID_finds_each_product_witness :
  NoDup (map id three_books) /\
  SearchProductByID three_books {| request := {| Payload.id := 2 |} |}
  = (Null, nth_error three_books 1).
Proof.
  assert (Hnodup : NoDup (map id three_books)).
  { cbn. repeat constructor; cbn; lia. }
  split; [exact Hnodup|].
  apply (SearchProductByID_finds_each_product three_books
           {| id := 2; name := "Book Two"; quantity := 7; price := 20%float;
              photo := "/img/2.png"; author := "B. Author" |} Hnodup).
  cbn. auto.
Defined.

(** X6. Where an id occurs more than once, the later product is out of
    reach: a product that follows another one with the same id is returned by
    no query, unless it is equal to an earlier one. *)
Theorem SearchProductByID_never_returns_shadowed
  (before after : list Product) (first p : Product) (payload : ServerCall) :
  In first before ->
  id first = id p ->
  ~ In p before ->
  snd (SearchProductByID (before ++ p :: after) payload) <> Some p.
Proof.
  intros Hfirst Hsame Hfresh Hfound.
  unfold SearchProductByID in Hfound. cbn [snd] in Hfound.
  destruct (find_first _ _ _ Hfound) as (pre & post & Hsplit & Hid & Hpre).
  cbn beta in Hid.
  assert (Hfind : find (fun product => id product =? Payload.id (request payload))
                    before = None).
  { destruct (find _ before) as [x|] eqn:Hx; [|reflexivity].
    exfalso. pose proof (find_some _ _ Hx) as [Hxin _].
    assert (Hall : find (fun product => id product =? Payload.id (request payload))
                     (before ++ p :: after) = Some x).
    { clear -Hx. induction before as [|a l IH]; [discriminate|].
      cbn [app find] in *. destruct (id a =? _); [assumption|auto]. }
    rewrite Hall in Hfound. injection Hfound as ->. now apply Hfresh. }
  apply (find_none _ _ Hfind) in Hfirst. cbn beta in Hfirst. lia.
Qed.

Lemma SearchProductByID_never_returns_shadowed_witness :
  snd (SearchProductByID EdgeScenario.with_reprint
         {| request := {| Payload.id := 1 |} |})
  <> Some EdgeScenario.reprint.
Proof.
  apply (SearchProductByID_never_returns_shadowed three_books []
           {| id := 1; name := "Book One"; quantity := 5; price := 10%float;
              photo := "/img/1.png"; author := "A. Author" |}
           EdgeScenario.reprint {| request := {| Payload.id := 1 |} |}).
  - cbn. auto.
  - reflexivity.
  - cbn. intros [H|[H|[H|[]]]]; discriminate H.
Defined.





End InventoryEdges.

(* ================================================================= *)
(** * Properties of the storefront's promise chains *)

Section PageFacts.
Import JS Inventory Frontend Page.

Variable toFixed : float -> Z -> string.
Variable ToString : Value -> Error + string.

(** X8. [newBook] succeeds on a parsed book exactly when the book's [price]
    is a number and each of [photo], [name], [id] and [author] converts to a
    string; it throws on a book that is [null], has no numeric [price], or has
    a field with no primitive form. *)
Theorem newBook_raw_succeeds_iff (book : Value) :
  (exists card, newBook_raw toFixed ToString book = inr card) <->
  (exists x, get book "price" = inr (Number x)) /\
  (forall key,
     In key ["photo"; "name"; "id"; "author"] ->
     exists s, substitute ToString book key = inr s).
Proof.
  unfold Page.newBook_raw, bind. split.
  - intros [card Hcard].
    destruct (substitute ToString book "photo") as [|photo] eqn:Hphoto;
      [discriminate|].
    destruct (substitute ToString book "name") as [|name] eqn:Hname;
      [discriminate|].
    destruct (substitute ToString book "id") as [|id] eqn:Hid; [discriminate|].
    destruct (get book "price") as [|price] eqn:Hprice; [discriminate|].
    destruct (call_toFixed toFixed price) as [|fixed] eqn:Hfixed;
      [discriminate|].
    destruct (substitute ToString book "author") as [|author] eqn:Hauthor;
      [discriminate|].
    split.
    + destruct price; cbn [call_toFixed] in Hfixed; try discriminate. eauto.
    + intros key [<-|[<-|[<-|[<-|[]]]]]; eauto.
  - intros [[x Hprice] Hkeys].
    destruct (Hkeys "photo") as [photo ->]; [cbn; auto|].
    destruct (Hkeys "name") as [name ->]; [cbn; auto|].
    destruct (Hkeys "id") as [id ->]; [cbn; auto|].
    destruct (Hkeys "author") as [author ->]; [cbn; auto 6|].
    rewrite Hprice. cbn [call_toFixed]. eauto.
Qed.

(** The loop over the books, when every book renders and when one does
    not. *)
Lemma forEach_all (items : list Json) (cards : list Element) :
  Forall2 (fun book card => newBook_raw toFixed ToString (of_json book) = inr card)
    items cards ->
  forEach_appendChild toFixed ToString items = (map AppendChild cards, None).
Proof.
  induction 1 as [|book card items cards Hcard _ IH]; [reflexivity|].
  cbn [Page.forEach_appendChild map]. now rewrite Hcard, IH.
Qed.

Lemma forEach_until (good rest : list Json) (bad : Json)
  (cards : list Element) (e : Error) :
  Forall2 (fun book card => newBook_raw toFixed ToString (of_json book) = inr card)
    good cards ->
  newBook_raw toFixed ToString (of_json bad) = inl e ->
  forEach_appendChild toFixed ToString (good ++ bad :: rest) =
  (map AppendChild cards, Some (ThrownError e)).
Proof.
  intros Hgood Hbad.
  induction Hgood as [|book card items cards Hcard _ IH].
  - cbn [app Page.forEach_appendChild map]. now rewrite Hbad.
  - cbn [app Page.forEach_appendChild map]. now rewrite Hcard, IH.
Qed.

(** X9. When the listing arrives and every book renders, the page gets one
    card per book, in the order of the array, and then the click listeners;
    no dialog is shown.  An empty array gives the listeners alone. *)
Theorem listing_appends_a_card_per_book
  (status : string) (items : list Json) (cards : list Element) :
  Forall2 (fun book card => newBook_raw toFixed ToString (of_json book) = inr card)
    items cards ->
  DOMContentLoaded toFixed ToString
    (Fulfilled {| ok := true; statusText := status; json := inr (JArray items) |})
  = (map AppendChild cards ++
     [AddClickListeners ".button-shipping"; AddClickListeners ".button-buy"])%list.
Proof.
  intros Hall.
  cbn [Page.DOMContentLoaded json_or_throw ok json Page.render_products
       of_json truthy].
  now rewrite (forEach_all _ _ Hall).
Qed.

(** X10. When a book of the listing does not render, the cards of the books
    before it stay on the page, the error dialog is shown and the error is
    logged; no later book is rendered and no click listener is registered. *)
Theorem listing_stops_at_first_bad_book
  (status : string) (good rest : list Json) (bad : Json)
  (cards : list Element) (e : Error) :
  Forall2 (fun book card => newBook_raw toFixed ToString (of_json book) = inr card)
    good cards ->
  newBook_raw toFixed ToString (of_json bad) = inl e ->
  DOMContentLoaded toFixed ToString
    (Fulfilled {| ok := true; statusText := status;
                  json := inr (JArray (good ++ bad :: rest)) |})
  = (map AppendChild cards ++
     [Swal "error" "error while listing products" "error";
      ConsoleErr (ThrownError e)])%list.
Proof.
  intros Hgood Hbad.
  cbn [Page.DOMContentLoaded json_or_throw ok json Page.render_products
       of_json truthy].
  now rewrite (forEach_until _ _ _ _ _ Hgood Hbad).
Qed.

(** X11. On a product object whose strings [ToString] leaves as they are and
    whose id it prints in decimal, [newBook] on the parsed book gives the
    element that [newBook] gives on the product record. *)
Theorem newBook_raw_of_object (p : Product) :
  (forall s, ToString (Str s) = inr s) ->
  ToString (Number (number_of_int32 (id p))) = inr (ToString_int (id p)) ->
  newBook_raw toFixed ToString (to_object p) = inr (newBook toFixed p).
Proof.
  intros Hstr Hid. unfold Page.newBook_raw, substitute, to_object.
  cbn [get lookup String.eqb Ascii.eqb Bool.eqb bind call_toFixed].
  rewrite !Hstr, !Hid. reflexivity.
Qed.

(** The loop appends cards and does nothing else. *)
Lemma forEach_only_appends (items : list Json) (effect : Effect) :
  In effect (fst (forEach_appendChild toFixed ToString items)) ->
  exists child, effect = AppendChild child.
Proof.
  induction items as [|book rest IH]; cbn [Page.forEach_appendChild].
  - intros [].
  - destruct (newBook_raw toFixed ToString (of_json book)) as [e|card];
      [intros []|].
    destruct (forEach_appendChild toFixed ToString rest) as [effects thrown].
    cbn [fst In] in *. intros [<-|Hin]; eauto.
Qed.

(** X12. The page gets cards or click listeners only from an [ok] response
    whose body is a JSON array, and it never both registers the listeners and
    shows a dialog. *)
Theorem listing_interactive_or_error (settled : Settled) :
  ((exists child, In (AppendChild child) (DOMContentLoaded toFixed ToString settled))
   \/ (exists selector,
         In (AddClickListeners selector) (DOMContentLoaded toFixed ToString settled)) ->
   exists status items,
     settled = Fulfilled {| ok := true; statusText := status;
                            json := inr (JArray items) |})
  /\
  ((exists selector,
      In (AddClickListeners selector) (DOMContentLoaded toFixed ToString settled)) ->
   forall title text icon,
     ~ In (Swal title text icon) (DOMContentLoaded toFixed ToString settled)).
Proof.
  assert (Hcatch : forall reason effect,
             In effect (catch_listing reason) ->
             (exists title text icon, effect = Swal title text icon) \/
             (exists r, effect = ConsoleErr r)).
  { intros reason effect [<-|[<-|[]]]; eauto. }
  destruct settled as [reason|[[|] status [reason|data]]];
    cbn [Page.DOMContentLoaded json_or_throw ok json statusText].
  1-2, 4-5: split;
    [ intros [[x Hin]|[x Hin]];
      apply Hcatch in Hin as [(t & u & i & H)|(r & H)]; discriminate H
    | intros [x Hin];
      apply Hcatch in Hin as [(t & u & i & H)|(r & H)]; discriminate H ].
  unfold Page.render_products.
  destruct (truthy (of_json data)) eqn:Htruthy.
  2: { split; [intros [[x []]|[x []]]|intros [x []]]. }
  destruct data as [|b|x|s|items|fields]; cbn iota beta; cbn [app].
  1-4, 6: split;
    [ intros [[y Hin]|[y Hin]];
      apply Hcatch in Hin as [(t & u & i & H)|(r & H)]; discriminate H
    | intros [y Hin];
      apply Hcatch in Hin as [(t & u & i & H)|(r & H)]; discriminate H ].
  split; [eauto|].
  pose proof (forEach_only_appends items) as Honly.
  destruct (forEach_appendChild toFixed ToString items) as [effects [reason|]];
    cbn [fst] in Honly.
  - intros [y Hin]. apply in_app_or in Hin as [Hin|Hin].
    + apply Honly in Hin as [c H]. discriminate H.
    + apply Hcatch in Hin as [(t & u & i & H)|(r & H)]; discriminate H.
  - intros _ title text icon Hin. apply in_app_or in Hin as [Hin|Hin].
    + apply Honly in Hin as [c H]. discriminate H.
    + destruct Hin as [H|[H|[]]]; discriminate H.
Qed.



End PageFacts.

Section PageWitnesses.
Import JS Inventory Frontend Page.

Lemma listing_appends_a_card_per_book_witness :
  DOMContentLoaded Scenario.to_fixed PageScenario.to_string
    (Fulfilled {| ok := true; statusText := "OK";
                  json := inr (JArray [PageScenario.book_one]) |})
  = [AppendChild (newBook Scenario.to_fixed Scenario.in_stock);
     AddClickListeners ".button-shipping"; AddClickListeners ".button-buy"].
Proof.
  apply (listing_appends_a_card_per_book Scenario.to_fixed PageScenario.to_string
           "OK" [PageScenario.book_one]
           [newBook Scenario.to_fixed Scenario.in_stock]).
  constructor; [vm_compute; reflexivity|constructor].
Defined.

Lemma listing_stops_at_first_bad_book_witness :
  DOMContentLoaded Scenario.to_fixed PageScenario.to_string
    (Fulfilled {| ok := true; statusText := "OK";
                  json := inr (JArray [PageScenario.book_one;
                                       PageScenario.odd_photo;
                                       PageScenario.book_one]) |})
  = [AppendChild (newBook Scenario.to_fixed Scenario.in_stock);
     Swal "error" "error while listing products" "error";
     ConsoleErr (ThrownError
                   (TypeError "Cannot convert object to primitive value"))].
Proof.
  apply (listing_stops_at_first_bad_book Scenario.to_fixed PageScenario.to_string
           "OK" [PageScenario.book_one] [PageScenario.book_one]
           PageScenario.odd_photo
           [newBook Scenario.to_fixed Scenario.in_stock]
           (TypeError "Cannot convert object to primitive value")).
  - constructor; [vm_compute; reflexivity|constructor].
  - reflexivity.
Defined.

Lemma newBook_raw_of_object_witness :
  newBook_raw Scenario.to_fixed PageScenario.to_string (to_object Scenario.in_stock)
  = inr (newBook Scenario.to_fixed Scenario.in_stock).
Proof.
  apply (newBook_raw_of_object Scenario.to_fixed PageScenario.to_string
           Scenario.in_stock).
  - intros s. reflexivity.
  - vm_compute. reflexivity.
Defined.

Lemma listing_interactive_or_error_witness :
  (exists status items,
     Fulfilled {| ok := true; statusText := "OK";
                  json := inr (JArray [PageScenario.book_one]) |}
     = Fulfilled {| ok := true; statusText := status;
                    json := inr (JArray items) |}) /\
  (forall title text icon,
     ~ In (Swal title text icon)
         (DOMContentLoaded Scenario.to_fixed PageScenario.to_string
            (Fulfilled {| ok := true; statusText := "OK";
                          json := inr (JArray [PageScenario.book_one]) |}))).
Proof.
  assert (Hlistens :
            exists selector,
              In (AddClickListeners selector)
                (DOMContentLoaded Scenario.to_fixed PageScenario.to_string
                   (Fulfilled {| ok := true; statusText := "OK";
                                 json := inr (JArray [PageScenario.book_one]) |}))).
  { exists ".button-buy". vm_compute. auto. }
  destruct (listing_interactive_or_error Scenario.to_fixed PageScenario.to_string
              (Fulfilled {| ok := true; statusText := "OK";
                            json := inr (JArray [PageScenario.book_one]) |}))
    as [Honly Hnever].
  split; [apply Honly; right; exact Hlistens|apply Hnever; exact Hlistens].
Defined.


End PageWitnesses.
